(** * Navigation layouts of the Expo Router demo application

    A shallow embedding of the four source components

      - [RootLayout]        (app/_layout.tsx)
      - [TabRoots]          (app/(tabs)/_layout.tsx)
      - [DrawerRootLayout]  (app/(drawer)/_layout.tsx)
      - [Index]             (app/index.tsx)

    as values of a small JSX element type, together with the structural
    properties of the element trees they return. *)

From Stdlib Require Import List String Bool.
From Stdlib Require Import Floats.PrimFloat.
Import ListNotations.
Local Open Scope string_scope.
Local Open Scope list_scope.
Set Warnings "-register-all".

(** ** JSX elements *)

(** A JavaScript number is an IEEE 754 binary64 value. *)
Definition number : Type := float.

(** The components the four source files import and instantiate. *)
Inductive Component : Type :=
| Stack | Stack_Screen
| Tabs | Tabs_Screen
| Drawer | Drawer_Screen
| GestureHandlerRootView
| View | Text | Link
| FontAwesome.

(** The object a bottom-tab navigator hands to a [tabBarIcon] callback. *)
Record IconProps : Type := { focused : bool; color : string; size : number }.

Arguments Build_IconProps focused color%_string size%_float.

(** Prop values and element trees.  An arrow function is kept with the
    destructuring pattern of its parameter: [({ color }) => ...] is
    [VFnColor], [({ color, size }) => ...] is [VFnColorSize]. *)
Inductive Value : Type :=
| VStr (s : string)
| VNum (n : number)
| VBool (b : bool)
| VObj (fields : list (string * Value))
| VFnColor (body : string -> Node)
| VFnColorSize (body : string -> number -> Node)
with Node : Type :=
| NText (s : string)
| NElem (c : Component) (props : list (string * Value)) (children : list Node).

Arguments VNum n%_float.

Definition Component_eqb (a b : Component) : bool :=
  match a, b with
  | Stack, Stack | Stack_Screen, Stack_Screen
  | Tabs, Tabs | Tabs_Screen, Tabs_Screen
  | Drawer, Drawer | Drawer_Screen, Drawer_Screen
  | GestureHandlerRootView, GestureHandlerRootView
  | View, View | Text, Text | Link, Link
  | FontAwesome, FontAwesome => true
  | _, _ => false
  end.

(** Property lookup in an object literal or a JSX attribute list: when a key
    is written twice the later occurrence wins, as in JavaScript. *)
Fixpoint lookup (k : string) (fields : list (string * Value)) : option Value :=
  match fields with
  | [] => None
  | (k', v) :: rest =>
      match lookup k rest with
      | Some w => Some w
      | None => if String.eqb k k' then Some v else None
      end
  end.

Definition tag (n : Node) : option Component :=
  match n with
  | NText _ => None
  | NElem c _ _ => Some c
  end.

Definition props (n : Node) : list (string * Value) :=
  match n with
  | NText _ => []
  | NElem _ ps _ => ps
  end.

Definition children (n : Node) : list Node :=
  match n with
  | NText _ => []
  | NElem _ _ ch => ch
  end.

Definition is_a (c : Component) (n : Node) : bool :=
  match tag n with
  | Some c' => Component_eqb c c'
  | None => false
  end.

Definition prop (k : string) (n : Node) : option Value := lookup k (props n).

Definition str_prop (k : string) (n : Node) : option string :=
  match prop k n with
  | Some (VStr s) => Some s
  | _ => None
  end.

(** The fields of an object-valued prop such as [style], [options] or
    [screenOptions]; an absent prop contributes no field. *)
Definition obj_prop (k : string) (n : Node) : list (string * Value) :=
  match prop k n with
  | Some (VObj fs) => fs
  | _ => []
  end.

Definition style (n : Node) : list (string * Value) := obj_prop "style" n.
Definition options (n : Node) : list (string * Value) := obj_prop "options" n.
Definition screenOptions (n : Node) : list (string * Value) :=
  obj_prop "screenOptions" n.

Definition num_field (k : string) (fs : list (string * Value)) : option number :=
  match lookup k fs with
  | Some (VNum x) => Some x
  | _ => None
  end.

Definition str_field (k : string) (fs : list (string * Value)) : option string :=
  match lookup k fs with
  | Some (VStr s) => Some s
  | _ => None
  end.

(** Every element of a tree, parents before children, in document order. *)
Fixpoint elements (n : Node) : list Node :=
  match n with
  | NText _ => []
  | NElem _ _ ch => n :: flat_map elements ch
  end.

Definition elements_of (c : Component) (n : Node) : list Node :=
  filter (is_a c) (elements n).

(** The text a tree shows, in document order. *)
Fixpoint texts (n : Node) : list string :=
  match n with
  | NText s => [s]
  | NElem _ _ ch => flat_map texts ch
  end.

(** ** Navigators *)

(** The screens a navigator element declares: its children of the given
    screen component. *)
Definition screens (screen : Component) (nav : Node) : list Node :=
  filter (is_a screen) (children nav).

Definition screen_name (s : Node) : option string := str_prop "name" s.
Definition screen_title (s : Node) : option string := str_field "title" (options s).

Definition screen_names (screen : Component) (nav : Node) : list (option string) :=
  map screen_name (screens screen nav).

(** Header visibility of a screen of a navigator, as the navigation library
    resolves it: the navigator's [screenOptions] are the defaults of all its
    screens, and a screen's own [options] take precedence over them. *)
Definition headerShown (nav s : Node) : option Value :=
  match lookup "headerShown" (options s) with
  | Some v => Some v
  | None => lookup "headerShown" (screenOptions nav)
  end.

(** Calling a [tabBarIcon] value on the props the navigator supplies.  A value
    that is not a function cannot be called. *)
Definition call_icon (v : Value) (p : IconProps) : option Node :=
  match v with
  | VFnColor body => Some (body (color p))
  | VFnColorSize body => Some (body (color p) (size p))
  | _ => None
  end.

(** The names an icon function binds from its argument. *)
Definition icon_params (v : Value) : option (list string) :=
  match v with
  | VFnColor _ => Some ["color"]
  | VFnColorSize _ => Some ["color"; "size"]
  | _ => None
  end.

Definition tabBarIcon (s : Node) : option Value := lookup "tabBarIcon" (options s).

(** ** app/_layout.tsx *)

Definition RootLayout : Node :=
  NElem Stack [("screenOptions", VObj [("headerShown", VBool false)])]
    [ NElem Stack_Screen [("name", VStr "(tabs)")] [];
      NElem Stack_Screen
        [("name", VStr "index"); ("options", VObj [("title", VStr "Home")])] [];
      NElem Stack_Screen
        [("name", VStr "about/index");
         ("options", VObj [("title", VStr "About Us")])] [] ].

(** ** app/(drawer)/_layout.tsx *)

Definition DrawerRootLayout : Node :=
  NElem GestureHandlerRootView [("style", VObj [("flex", VNum 1)])]
    [ NElem Drawer []
        [ NElem Drawer_Screen
            [("name", VStr "index");
             ("options", VObj [("title", VStr "My home page")])] [];
          NElem Drawer_Screen
            [("name", VStr "setting");
             ("options", VObj [("title", VStr "Settings")])] [] ] ].

(** ** app/index.tsx *)

Definition Index : Node :=
  NElem View
    [("style", VObj [("flex", VNum 1);
                     ("justifyContent", VStr "center");
                     ("alignItems", VStr "center")])]
    [ NElem Text [] [NText "Hello Mubarak Ansari"];
      NElem Link [("href", VStr "about")] [NText "Go to About"] ].

(** ** app/(tabs)/_layout.tsx *)

(** What the module imports from [react-native]'s [StyleSheet]: the
    platform's thinnest line width, fixed when the module is loaded. *)
Record StyleSheetModule : Type := { hairlineWidth : number }.

Arguments Build_StyleSheetModule hairlineWidth%_float.

Section TabLayout.

Variable StyleSheet : StyleSheetModule.

Definition tabBarIcon_index (color : string) : Node :=
  NElem FontAwesome
    [("size", VNum 28); ("name", VStr "home"); ("color", VStr color)] [].

Definition tabBarIcon_aboutus (color : string) (size : number) : Node :=
  NElem View
    [("style",
      VObj [("width", VNum 60);
            ("height", VNum 60);
            ("borderRadius", VNum 50);
            ("backgroundColor", VStr "white");
            ("bottom", VNum 15);
            ("justifyContent", VStr "center");
            ("alignItems", VStr "center");
            ("borderColor", VStr "gray");
            ("borderWidth", VNum (hairlineWidth StyleSheet))])]
    [ NElem FontAwesome
        [("size", VNum 28); ("name", VStr "globe"); ("color", VStr color)] [] ].

Definition tabBarIcon_profile (color : string) : Node :=
  NElem FontAwesome
    [("size", VNum 28); ("name", VStr "user-circle-o"); ("color", VStr color)] [].

Definition TabRoots : Node :=
  NElem Tabs []
    [ NElem Tabs_Screen
        [("name", VStr "index");
         ("options", VObj [("title", VStr "Home");
                           ("tabBarIcon", VFnColor tabBarIcon_index)])] [];
      NElem Tabs_Screen
        [("name", VStr "aboutus");
         ("options", VObj [("title", VStr "About us");
                           ("tabBarIcon", VFnColorSize tabBarIcon_aboutus)])] [];
      NElem Tabs_Screen
        [("name", VStr "profile");
         ("options", VObj [("title", VStr "Profile");
                           ("tabBarIcon", VFnColor tabBarIcon_profile)])] [] ].

End TabLayout.

(** ** Derived views of an element tree *)

(** Every element of a tree together with the components of its ancestors,
    outermost first. *)
Fixpoint located (ancestors : list Component) (n : Node)
  : list (list Component * Node) :=
  match n with
  | NText _ => []
  | NElem c _ ch => (ancestors, n) :: flat_map (located (ancestors ++ [c])) ch
  end.

(** Every [c] element of the tree lies below a [scope] element. *)
Definition nested_inside (scope c : Component) (root : Node) : bool :=
  forallb (fun an => existsb (Component_eqb scope) (fst an))
          (filter (fun an => is_a c (snd an)) (located [] root)).

(** The links of a tree: target and visible label of each. *)
Definition links (n : Node) : list (option string * list string) :=
  map (fun l => (str_prop "href" l, texts l)) (elements_of Link n).

(** The plain text labels of a tree. *)
Definition labels (n : Node) : list (list string) :=
  map texts (elements_of Text n).

(** The [size] each icon glyph of a tree is drawn at. *)
Definition glyph_sizes (n : Node) : list (option Value) :=
  map (prop "size") (elements_of FontAwesome n).

(** A box is drawn as a circle when it is square and its corner radius is at
    least half its side. *)
Definition circular (st : list (string * Value)) : bool :=
  match num_field "width" st, num_field "height" st, num_field "borderRadius" st with
  | Some w, Some h, Some r => PrimFloat.eqb w h && PrimFloat.leb (PrimFloat.div w 2) r
  | _, _, _ => false
  end.

(** A positive [bottom] inset moves a box up from where layout put it. *)
Definition raised (st : list (string * Value)) : bool :=
  match num_field "bottom" st with
  | Some b => PrimFloat.ltb 0 b
  | None => false
  end.

(** The icon function of the tab screen called [name]. *)
Definition tab_icon (tabs : Node) (name : string) : option Value :=
  match filter (fun s => match screen_name s with
                         | Some n => String.eqb n name
                         | None => false
                         end) (screens Tabs_Screen tabs) with
  | s :: _ => tabBarIcon s
  | [] => None
  end.

(** ** The route table of the specification *)

Inductive StackEntry : Type := TabsGroup | DrawerGroup | InitialScreen | AboutScreen.

(** The directory or file name a stack entry has under [app/]. *)
Definition route_name (e : StackEntry) : string :=
  match e with
  | TabsGroup => "(tabs)"
  | DrawerGroup => "(drawer)"
  | InitialScreen => "index"
  | AboutScreen => "about/index"
  end.

(** The stack entries as the route table of the specification lists them. *)
Definition spec_stack_entries : list StackEntry :=
  [TabsGroup; DrawerGroup; InitialScreen; AboutScreen].

(** The [color] each icon glyph of a tree is drawn in. *)
Definition glyph_colors (n : Node) : list (option Value) :=
  map (prop "color") (elements_of FontAwesome n).

(** An object literal with the field [k] left out. *)
Definition without_field (k : string) (fs : list (string * Value))
  : list (string * Value) :=
  filter (fun kv => negb (String.eqb k (fst kv))) fs.

(** The screen names declared by the [nav] navigators of a tree. *)
Definition declared_names (nav screen : Component) (root : Node)
  : list (option string) :=
  flat_map (screen_names screen) (elements_of nav root).

(** The header setting of every screen of the [nav] navigators of a tree. *)
Definition header_settings (nav screen : Component) (root : Node)
  : list (option Value) :=
  flat_map (fun n => map (headerShown n) (screens screen n)) (elements_of nav root).

(** ** Calls of the icon functions, with their effects *)

(** What a running call can read and could change: the [StyleSheet] object
    of [react-native], whose properties are looked up each time an expression
    mentions them, and every other binding and object of the program. *)
Record World : Type :=
  { react_native_StyleSheet : StyleSheetModule;
    other_state : list (string * Value) }.

Inductive JsError : Type := TypeError.

(** A call either returns a value or throws. *)
Inductive Outcome (A : Type) : Type :=
| Returned (a : A)
| Thrown (e : JsError).

Arguments Returned {A} a.
Arguments Thrown {A} e.

(** An evaluation: from the world before it to its outcome and the world
    after it. *)
Definition Js (A : Type) : Type := World -> Outcome A * World.

Definition ret {A : Type} (a : A) : Js A := fun w => (Returned a, w).

Definition throw {A : Type} (e : JsError) : Js A := fun w => (Thrown e, w).

Definition bind {A B : Type} (c : Js A) (k : A -> Js B) : Js B :=
  fun w =>
    match c w with
    | (Returned a, w') => k a w'
    | (Thrown e, w') => (Thrown e, w')
    end.

Notation "x <- c ;; k" := (bind c (fun x => k))
  (at level 61, c at next level, right associativity).

(** Evaluating the imported name [StyleSheet]. *)
Definition the_StyleSheet : Js StyleSheetModule :=
  fun w => (Returned (react_native_StyleSheet w), w).

(** Binding an object pattern such as [{ color }] to the argument of a call.
    A call without an argument passes [undefined], which has no property to
    take: the binding throws a TypeError. *)
Definition destructure (arg : option IconProps) : Js IconProps :=
  match arg with
  | Some p => ret p
  | None => throw TypeError
  end.

(** The arrow function of the [index] tab (lines 13-15). *)
Definition icon_index (arg : option IconProps) : Js Node :=
  p <- destructure arg ;;
  ret (tabBarIcon_index (color p)).

(** The arrow function of the [aboutus] tab (lines 23-41); its style literal
    reads [StyleSheet.hairlineWidth] when the call runs. *)
Definition icon_aboutus (arg : option IconProps) : Js Node :=
  p <- destructure arg ;;
  StyleSheet <- the_StyleSheet ;;
  ret (tabBarIcon_aboutus StyleSheet (color p) (size p)).

(** The arrow function of the [profile] tab (lines 49-51). *)
Definition icon_profile (arg : option IconProps) : Js Node :=
  p <- destructure arg ;;
  ret (tabBarIcon_profile (color p)).

Definition tab_icon_functions : list (string * (option IconProps -> Js Node)) :=
  [("index", icon_index); ("aboutus", icon_aboutus); ("profile", icon_profile)].

(** One evaluation after another, keeping both results. *)
Definition twice {A : Type} (c1 c2 : Js A) : Js (A * A) :=
  x <- c1 ;;
  y <- c2 ;;
  ret (x, y).

(** ** Tactics *)

(** Element trees of the layouts are closed terms: most facts about them
    follow by evaluation. *)
Ltac by_evaluation := repeat split; vm_compute; try reflexivity; try discriminate.

Ltac forall_by_cases :=
  repeat (apply Forall_cons; [ vm_compute; try reflexivity; try discriminate | ]);
  try apply Forall_nil.

(** ** General facts about the element model *)

(** A key written last in an object literal is the one [lookup] finds. *)
Lemma lookup_last (k : string) (v : Value) (fs : list (string * Value)) :
  lookup k (fs ++ [(k, v)]) = Some v.
Proof.
  induction fs as [| [k' v'] fs IH]; simpl.
  - now rewrite String.eqb_refl.
  - now rewrite IH.
Qed.

(** A key that occurs nowhere in an object literal is not found. *)
Lemma lookup_absent (k : string) (fs : list (string * Value)) :
  ~ In k (map fst fs) -> lookup k fs = None.
Proof.
  induction fs as [| [k' v'] fs IH]; simpl; intros Hk.
  - reflexivity.
  - rewrite IH by tauto.
    destruct (String.eqb_spec k k') as [-> | _]; [ | reflexivity].
    exfalso. apply Hk. now left.
Qed.

(** A screen that says nothing about its header takes the navigator's
    setting. *)
Lemma headerShown_inherited (nav s : Node) :
  lookup "headerShown" (options s) = None ->
  headerShown nav s = lookup "headerShown" (screenOptions nav).
Proof. unfold headerShown. now intros ->. Qed.

(** A function that binds only [color] returns the same element for any two
    argument objects with the same color. *)
Lemma call_icon_color_only (body : string -> Node) (p q : IconProps) :
  color p = color q ->
  call_icon (VFnColor body) p = call_icon (VFnColor body) q.
Proof. simpl. now intros ->. Qed.

Lemma call_icon_color_size (body : string -> number -> Node) (p q : IconProps) :
  color p = color q -> size p = size q ->
  call_icon (VFnColorSize body) p = call_icon (VFnColorSize body) q.
Proof. simpl. now intros -> ->. Qed.

(** Calling a function value never fails. *)
Lemma call_icon_total (f : Value) (p : IconProps) :
  icon_params f <> None -> exists n, call_icon f p = Some n.
Proof.
  destruct f; simpl; intros H; try (now contradiction H); eexists; reflexivity.
Qed.

(** [located] lists the same elements as [elements], in the same order. *)
Fixpoint located_elements (n : Node) :
  forall ancestors, map snd (located ancestors n) = elements n.
Proof.
  destruct n as [s | c ps ch]; intros ancestors; simpl.
  - reflexivity.
  - f_equal.
    induction ch as [| x xs IH]; simpl.
    + reflexivity.
    + rewrite map_app, IH. f_equal. apply located_elements.
Qed.

(** ** The root stack (app/_layout.tsx) *)

Lemma root_children_are_screens :
  tag RootLayout = Some Stack /\
  children RootLayout = screens Stack_Screen RootLayout.
Proof. split; reflexivity. Qed.

(** C1, as stated, fails: the route table of the specification has the
    drawer group among the stack entries, and the root stack declares no
    screen of that name. *)
Lemma root_stack_omits_drawer_group :
  In DrawerGroup spec_stack_entries /\
  ~ In (Some (route_name DrawerGroup)) (screen_names Stack_Screen RootLayout).
Proof.
  split.
  - simpl. auto.
  - vm_compute. intros [H | [H | [H | []]]]; discriminate H.
Qed.

(** C1, amended: the root stack declares exactly three entries, the tab
    group [(tabs)], the initial screen route [index] and the standalone route
    [about/index], in that order, each a [Stack.Screen] child of the [Stack]
    container, and the container has no other child.  The drawer group is
    not among them. *)
Theorem root_stack_entries :
  tag RootLayout = Some Stack /\
  children RootLayout = screens Stack_Screen RootLayout /\
  screen_names Stack_Screen RootLayout
    = map (fun e => Some (route_name e)) [TabsGroup; InitialScreen; AboutScreen] /\
  ~ In (Some (route_name DrawerGroup)) (screen_names Stack_Screen RootLayout).
Proof.
  destruct root_children_are_screens as [Htag Hch].
  repeat split; trivial.
  vm_compute. intros [H | [H | [H | []]]]; discriminate H.
Qed.

(** C6: the stack-level screen options set [headerShown] to false, no screen
    of the root stack overrides it, and so the header of each of the three
    declared screens, [(tabs)], [index] and [about/index], is hidden. *)
Theorem root_stack_headers_hidden :
  lookup "headerShown" (screenOptions RootLayout) = Some (VBool false) /\
  screen_names Stack_Screen RootLayout
    = [Some "(tabs)"; Some "index"; Some "about/index"] /\
  Forall (fun s => lookup "headerShown" (options s) = None /\
                   headerShown RootLayout s = Some (VBool false))
         (screens Stack_Screen RootLayout).
Proof.
  split; [reflexivity | split; [reflexivity | ]].
  unfold RootLayout, screens; simpl.
  repeat (apply Forall_cons;
          [ split; [ | rewrite headerShown_inherited]; reflexivity | ]).
  apply Forall_nil.
Qed.

(** ** The drawer group (app/(drawer)/_layout.tsx) *)

(** C2: the drawer group declares exactly two destinations, [index] titled
    "My home page" and [setting] titled "Settings", both children of the one
    [Drawer] navigator, and the title of each differs from its route name. *)
Theorem drawer_destinations :
  (exists drawer,
      elements_of Drawer DrawerRootLayout = [drawer] /\
      children drawer = elements_of Drawer_Screen DrawerRootLayout) /\
  map (fun s => (screen_name s, screen_title s))
      (elements_of Drawer_Screen DrawerRootLayout)
    = [(Some "index", Some "My home page"); (Some "setting", Some "Settings")] /\
  Forall (fun s => screen_title s <> screen_name s)
         (elements_of Drawer_Screen DrawerRootLayout).
Proof.
  split; [ | split].
  - eexists. split; reflexivity.
  - reflexivity.
  - forall_by_cases.
Qed.

(** C8: the layout's root is a [GestureHandlerRootView] whose style is
    [flex: 1]; the one [Drawer] navigator and its two screens all lie below
    that element. *)
Theorem drawer_inside_gesture_root :
  tag DrawerRootLayout = Some GestureHandlerRootView /\
  style DrawerRootLayout = [("flex", VNum 1)] /\
  List.length (elements_of Drawer DrawerRootLayout) = 1 /\
  List.length (elements_of Drawer_Screen DrawerRootLayout) = 2 /\
  nested_inside GestureHandlerRootView Drawer DrawerRootLayout = true /\
  nested_inside GestureHandlerRootView Drawer_Screen DrawerRootLayout = true.
Proof. by_evaluation. Qed.

(** ** The initial screen (app/index.tsx) *)

(** C5: the initial screen shows one text label, "Hello Mubarak Ansari", and
    one link, labelled "Go to About" with target [about]; nothing else on
    the screen carries text. *)
Theorem initial_screen_content :
  labels Index = [["Hello Mubarak Ansari"]] /\
  links Index = [(Some "about", ["Go to About"])] /\
  texts Index = ["Hello Mubarak Ansari"; "Go to About"] /\
  map tag (children Index) = [Some Text; Some Link].
Proof. by_evaluation. Qed.

(** ** The tab group (app/(tabs)/_layout.tsx) *)

Section TabProperties.

Variable StyleSheet : StyleSheetModule.

Lemma tab_icon_index :
  tab_icon (TabRoots StyleSheet) "index" = Some (VFnColor tabBarIcon_index).
Proof. reflexivity. Qed.

Lemma tab_icon_aboutus :
  tab_icon (TabRoots StyleSheet) "aboutus"
  = Some (VFnColorSize (tabBarIcon_aboutus StyleSheet)).
Proof. reflexivity. Qed.

Lemma tab_icon_profile :
  tab_icon (TabRoots StyleSheet) "profile" = Some (VFnColor tabBarIcon_profile).
Proof. reflexivity. Qed.

(** C7: the tab group declares exactly three destinations, [index],
    [aboutus] and [profile] in that order; each has a title and an icon
    function, which binds [color] from its argument and, for [aboutus]
    only, [size] as well. *)
Theorem tab_destinations :
  tag (TabRoots StyleSheet) = Some Tabs /\
  children (TabRoots StyleSheet) = screens Tabs_Screen (TabRoots StyleSheet) /\
  map (fun s => (screen_name s, screen_title s,
                 option_map icon_params (tabBarIcon s)))
      (screens Tabs_Screen (TabRoots StyleSheet))
    = [ (Some "index", Some "Home", Some (Some ["color"]));
        (Some "aboutus", Some "About us", Some (Some ["color"; "size"]));
        (Some "profile", Some "Profile", Some (Some ["color"])) ].
Proof. repeat split; reflexivity. Qed.

(** C3: whatever tint color (and size) the [aboutus] icon function is
    given, it returns a [View] of width 60 and height 60 with corner radius
    50, hence a circle, raised by a [bottom] inset of 15, whose only child
    is the glyph in the given color; the style of that container is the
    same for all inputs. *)
Theorem aboutus_icon_container (c c' : string) (s s' : number) :
  tab_icon (TabRoots StyleSheet) "aboutus"
    = Some (VFnColorSize (tabBarIcon_aboutus StyleSheet)) /\
  tag (tabBarIcon_aboutus StyleSheet c s) = Some View /\
  num_field "width" (style (tabBarIcon_aboutus StyleSheet c s)) = Some 60%float /\
  num_field "height" (style (tabBarIcon_aboutus StyleSheet c s)) = Some 60%float /\
  num_field "borderRadius" (style (tabBarIcon_aboutus StyleSheet c s))
    = Some 50%float /\
  num_field "bottom" (style (tabBarIcon_aboutus StyleSheet c s)) = Some 15%float /\
  circular (style (tabBarIcon_aboutus StyleSheet c s)) = true /\
  raised (style (tabBarIcon_aboutus StyleSheet c s)) = true /\
  (exists glyph,
      children (tabBarIcon_aboutus StyleSheet c s) = [glyph] /\
      tag glyph = Some FontAwesome /\
      str_prop "color" glyph = Some c) /\
  style (tabBarIcon_aboutus StyleSheet c s)
    = style (tabBarIcon_aboutus StyleSheet c' s').
Proof.
  repeat match goal with |- _ /\ _ => split end; try reflexivity.
  eexists. repeat split; reflexivity.
Qed.

(** C9: the [aboutus] icon function binds [size] and never uses it: calls
    with the same color and any two sizes return the same element. *)
Theorem aboutus_icon_ignores_size (foc : bool) (c : string) (s s' : number) :
  exists f,
    tab_icon (TabRoots StyleSheet) "aboutus" = Some f /\
    icon_params f = Some ["color"; "size"] /\
    call_icon f {| focused := foc; color := c; size := s |}
    = call_icon f {| focused := foc; color := c; size := s' |}.
Proof.
  exists (VFnColorSize (tabBarIcon_aboutus StyleSheet)).
  split; [apply tab_icon_aboutus | split; reflexivity].
Qed.

(** C10: for every color and size, each of the three icon functions
    returns a tree with exactly one glyph, drawn at size 28; the size the
    navigator supplies does not reach the glyph. *)
Theorem tab_glyph_size (p : IconProps) :
  List.length (screens Tabs_Screen (TabRoots StyleSheet)) = 3 /\
  Forall (fun s => exists f n,
              tabBarIcon s = Some f /\
              call_icon f p = Some n /\
              glyph_sizes n = [Some (VNum 28)])
         (screens Tabs_Screen (TabRoots StyleSheet)).
Proof.
  split; [reflexivity | ].
  unfold TabRoots, screens; simpl.
  repeat (apply Forall_cons;
          [ eexists; eexists; split; [reflexivity | split; reflexivity] | ]).
  apply Forall_nil.
Qed.

End TabProperties.

(** ** Calls of the icon functions *)

(** Monad laws of evaluations that return. *)
Lemma bind_ret {A B : Type} (a : A) (k : A -> Js B) (w : World) :
  bind (ret a) k w = k a w.
Proof. reflexivity. Qed.

Lemma bind_returned {A B : Type} (c : Js A) (k : A -> Js B) (w w' : World) (a : A) :
  c w = (Returned a, w') -> bind c k w = k a w'.
Proof. unfold bind. now intros ->. Qed.

Lemma bind_thrown {A B : Type} (c : Js A) (k : A -> Js B) (w w' : World) (e : JsError) :
  c w = (Thrown e, w') -> bind c k w = (Thrown e, w').
Proof. unfold bind. now intros ->. Qed.

(** Two evaluations that return and leave the world as it was also do so one
    after the other. *)
Lemma twice_returned {A : Type} (c1 c2 : Js A) (w : World) (a1 a2 : A) :
  c1 w = (Returned a1, w) ->
  c2 w = (Returned a2, w) ->
  twice c1 c2 w = (Returned (a1, a2), w).
Proof.
  intros H1 H2. unfold twice.
  rewrite (bind_returned _ _ _ _ _ H1), (bind_returned _ _ _ _ _ H2).
  reflexivity.
Qed.

(** A call with an argument object returns what the icon function declared
    by the tab layout returns on the platform of the moment, and leaves the
    world as it was. *)
Lemma icon_call_returns
      (w : World) (name : string) (f : option IconProps -> Js Node)
      (p : IconProps) :
  In (name, f) tab_icon_functions ->
  exists v n,
    tab_icon (TabRoots (react_native_StyleSheet w)) name = Some v /\
    call_icon v p = Some n /\
    f (Some p) w = (Returned n, w).
Proof.
  intros Hin.
  destruct Hin as [H | [H | [H | []]]]; injection H as <- <-;
    eexists; eexists; repeat split; reflexivity.
Qed.

(** C4: each of the three icon functions, called with an argument object,
    returns without throwing and leaves the world as it was; called twice in
    a row with arguments of the same color (and, for [aboutus], the same
    size) it returns the same element both times, the one the tab layout's
    icon declares. *)
Theorem tab_icons_pure
        (w : World) (name : string) (f : option IconProps -> Js Node)
        (p q : IconProps) :
  In (name, f) tab_icon_functions ->
  color p = color q ->
  (name = "aboutus" -> size p = size q) ->
  exists v n,
    tab_icon (TabRoots (react_native_StyleSheet w)) name = Some v /\
    call_icon v p = Some n /\
    twice (f (Some p)) (f (Some q)) w = (Returned (n, n), w).
Proof.
  intros Hin Hcolor Hsize.
  destruct (icon_call_returns w name f p Hin) as (v & n & Hv & Hp & Hfp).
  destruct (icon_call_returns w name f q Hin) as (v' & n' & Hv' & Hq & Hfq).
  rewrite Hv in Hv'. injection Hv' as <-.
  exists v, n. split; [exact Hv | split; [exact Hp | ]].
  assert (Hpq : call_icon v p = call_icon v q).
  { destruct Hin as [H | [H | [H | []]]]; injection H as <- <-;
      injection Hv as <-.
    - now apply call_icon_color_only.
    - apply call_icon_color_size; [exact Hcolor | now apply Hsize].
    - now apply call_icon_color_only. }
  rewrite Hp, Hq in Hpq. injection Hpq as <-.
  now apply twice_returned.
Qed.


(** The [aboutus] icon called for a focused and then for an unfocused tab
    with the same tint and size, on a platform whose hairline is half a
    point. *)
Lemma tab_icons_pure_witness :
  In ("aboutus", icon_aboutus) tab_icon_functions /\
  exists v n,
    tab_icon (TabRoots {| hairlineWidth := 0.5 |}) "aboutus" = Some v /\
    call_icon v {| focused := true; color := "#007AFF"; size := 25 |} = Some n /\
    twice
      (icon_aboutus (Some {| focused := true; color := "#007AFF"; size := 25 |}))
      (icon_aboutus (Some {| focused := false; color := "#007AFF"; size := 25 |}))
      {| react_native_StyleSheet := {| hairlineWidth := 0.5 |};
         other_state := [("mounted", VBool true)] |}
    = (Returned (n, n),
       {| react_native_StyleSheet := {| hairlineWidth := 0.5 |};
          other_state := [("mounted", VBool true)] |}).
Proof.
  split.
  - simpl. auto.
  - apply (tab_icons_pure
             {| react_native_StyleSheet := {| hairlineWidth := 0.5 |};
                other_state := [("mounted", VBool true)] |}
             "aboutus" icon_aboutus).
    + simpl. auto.
    + reflexivity.
    + reflexivity.
Defined.

(** ** Further properties of the navigators *)

(** X5: header suppression is the root stack's alone: the tab navigator and
    the drawer navigator have no [screenOptions], and none of their five
    screens sets [headerShown], so the layouts leave those headers to the
    navigation library's default. *)
Theorem inner_navigators_leave_headers (StyleSheet : StyleSheetModule) :
  map screenOptions (elements_of Tabs (TabRoots StyleSheet)) = [[]] /\
  map screenOptions (elements_of Drawer DrawerRootLayout) = [[]] /\
  header_settings Tabs Tabs_Screen (TabRoots StyleSheet) = [None; None; None] /\
  header_settings Drawer Drawer_Screen DrawerRootLayout = [None; None] /\
  header_settings Stack Stack_Screen RootLayout
    = [Some (VBool false); Some (VBool false); Some (VBool false)].
Proof. repeat split; reflexivity. Qed.

(** X6: in each of the three navigators every declared screen carries a
    name, and no name is declared twice. *)
Theorem navigators_name_their_screens (StyleSheet : StyleSheetModule) :
  Forall (fun names => Forall (fun n => exists r, n = Some r) names /\ NoDup names)
         [ declared_names Stack Stack_Screen RootLayout;
           declared_names Tabs Tabs_Screen (TabRoots StyleSheet);
           declared_names Drawer Drawer_Screen DrawerRootLayout ].
Proof.
  repeat (apply Forall_cons; [ split | ]); try apply Forall_nil;
    vm_compute;
    repeat (constructor; try (eexists; reflexivity));
    simpl; intuition discriminate.
Qed.

Section TabIconProperties.

Variable StyleSheet : StyleSheetModule.

(** X1: what an icon function returns depends on the tint color and on
    nothing else: for each of the three tabs, two calls return the same
    element exactly when they are given the same color. *)
Theorem tab_icon_results_equal_iff_same_color (p q : IconProps) :
  Forall (fun s => exists f,
              tabBarIcon s = Some f /\
              (call_icon f p = call_icon f q <-> color p = color q))
         (screens Tabs_Screen (TabRoots StyleSheet)).
Proof.
  unfold TabRoots, screens; simpl.
  repeat (apply Forall_cons;
          [ eexists; split; [reflexivity | ]; simpl; split; intros H;
            [ injection H; trivial | now rewrite H ] | ]).
  apply Forall_nil.
Qed.

(** X2: the tint color reaches the glyph unchanged: for every argument each
    icon function returns a tree whose one glyph is drawn in the color given,
    and that shows no text. *)
Theorem tab_glyph_color (p : IconProps) :
  Forall (fun s => exists f n,
              tabBarIcon s = Some f /\
              call_icon f p = Some n /\
              glyph_colors n = [Some (VStr (color p))] /\
              texts n = [])
         (screens Tabs_Screen (TabRoots StyleSheet)).
Proof.
  unfold TabRoots, screens; simpl.
  repeat (apply Forall_cons;
          [ eexists; eexists; repeat split; reflexivity | ]).
  apply Forall_nil.
Qed.

(** X7: the icons of two different tabs are never the same element, whatever
    colors and sizes the two functions are called with. *)
Theorem tab_icons_differ (i j : nat) (s1 s2 : Node) (f1 f2 : Value)
        (p q : IconProps) :
  nth_error (screens Tabs_Screen (TabRoots StyleSheet)) i = Some s1 ->
  nth_error (screens Tabs_Screen (TabRoots StyleSheet)) j = Some s2 ->
  Nat.eqb i j = false ->
  tabBarIcon s1 = Some f1 ->
  tabBarIcon s2 = Some f2 ->
  call_icon f1 p <> call_icon f2 q.
Proof.
  intros H1 H2 Hij Hf1 Hf2.
  destruct i as [| [| [| i]]]; simpl in H1;
    try (destruct i; discriminate H1);
    destruct j as [| [| [| j]]]; simpl in H2;
    try (destruct j; discriminate H2);
    try discriminate Hij;
    injection H1 as <-; injection H2 as <-;
    injection Hf1 as <-; injection Hf2 as <-;
    simpl; intros H; discriminate H.
Qed.

End TabIconProperties.

(** X3: the platform enters the tab layout through one field only.  The
    border of the [aboutus] container is as wide as the platform's hairline;
    the rest of its style and its glyph are the same on every platform; and
    two platforms get the same tab layout exactly when their hairline widths
    agree. *)
Theorem tab_layout_platform_dependence
        (S1 S2 : StyleSheetModule) (c : string) (s : number) :
  num_field "borderWidth" (style (tabBarIcon_aboutus S1 c s))
    = Some (hairlineWidth S1) /\
  without_field "borderWidth" (style (tabBarIcon_aboutus S1 c s))
    = without_field "borderWidth" (style (tabBarIcon_aboutus S2 c s)) /\
  children (tabBarIcon_aboutus S1 c s) = children (tabBarIcon_aboutus S2 c s) /\
  (TabRoots S1 = TabRoots S2 <-> hairlineWidth S1 = hairlineWidth S2).
Proof.
  repeat match goal with |- _ /\ _ => split end; try reflexivity.
  split.
  - intros H. unfold TabRoots in H.
    injection H as H.
    apply (f_equal (fun f => f c s)) in H.
    unfold tabBarIcon_aboutus in H.
    now injection H.
  - intros H. destruct S1 as [w1], S2 as [w2]; simpl in H. now rewrite H.
Qed.

(** The first and the last tab, on a platform whose hairline is half a
    point. *)
Lemma tab_icons_differ_witness :
  Nat.eqb 0 2 = false /\
  call_icon (VFnColor tabBarIcon_index)
            {| focused := true; color := "#007AFF"; size := 25 |}
  <> call_icon (VFnColor tabBarIcon_profile)
               {| focused := true; color := "#007AFF"; size := 25 |}.
Proof.
  split.
  - reflexivity.
  - apply (tab_icons_differ {| hairlineWidth := 0.5 |} 0 2
             (NElem Tabs_Screen
                [("name", VStr "index");
                 ("options", VObj [("title", VStr "Home");
                                   ("tabBarIcon", VFnColor tabBarIcon_index)])] [])
             (NElem Tabs_Screen
                [("name", VStr "profile");
                 ("options", VObj [("title", VStr "Profile");
                                   ("tabBarIcon", VFnColor tabBarIcon_profile)])] []));
      reflexivity.
Defined.
